(** * farmcars: the data-model layer (models.py) and the bootstrap (main.py)

    A shallow embedding of the two source files.  The source is declarative:
    it is given meaning by the libraries it imports (bson's [ObjectId],
    pydantic's [BaseModel] and [Field], decouple's [config], FastAPI's
    [add_middleware]).  The parts of those libraries that the source calls are
    written out here as the functions they are, so that the classes of
    models.py and the statements of main.py can be read off one for one.

    Scope of the value universe: [pyval] has the values a decoded JSON body
    can carry (None, bool, int, str, list, dict) and the two driver types
    (bytes, ObjectId).  Floating-point and Decimal values are left out.  Text
    is a [string] of 8-bit code points. *)

From Stdlib Require Import ZArith NArith List String Ascii Bool Lia.
From Stdlib.Strings Require Import Byte.
From Stdlib Require Import DecimalString.
From stdpp Require Import base option list gmap strings.

Local Open Scope string_scope.
Local Open Scope list_scope.
Set Warnings "-register-all".

(** ** Python values *)

(** [bson.ObjectId]: the only state of an instance is [__id], its bytes.
    [PyObjectId] subclasses it without adding state, and [ObjectId.__eq__]
    compares [binary] whatever the subclass, so an instance of either class is
    represented by its bytes. *)
Record ObjectId_t := mkObjectId { binary : list byte }.

Inductive pyval :=
| VNone
| VBool (b : bool)
| VInt (z : Z)
| VStr (s : string)
| VBytes (b : list byte)
| VObjectId (o : ObjectId_t)
| VList (l : list pyval)
| VDict (d : list (string * pyval)).

(** Truth value of an object ([not oid] in [ObjectId.is_valid]). *)
Definition py_bool (v : pyval) : bool :=
  match v with
  | VNone => false
  | VBool b => b
  | VInt z => negb (z =? 0)%Z
  | VStr s => negb (String.length s =? 0)%nat
  | VBytes b => negb (length b =? 0)%nat
  | VObjectId _ => true
  | VList l => negb (length l =? 0)%nat
  | VDict d => negb (length d =? 0)%nat
  end.

(** [v is None]. *)
Definition pyval_is_None (v : pyval) : bool :=
  match v with VNone => true | _ => false end.

(** ** Exceptions *)

Inductive exn :=
| ValueError (msg : string)
| TypeError (msg : string)
| InvalidId                              (* bson.errors.InvalidId *)
| MissingError                           (* pydantic.errors, all below *)
| NoneIsNotAllowedError
| IntegerError
| StrError
| AnyStrMinLengthError (limit_value : nat).

(** pydantic's [ErrorWrapper(exc, loc)]. *)
Definition ErrorWrapper : Type := string * exn.

Inductive raised :=
| Exc (e : exn)
| ValidationError (errors : list ErrorWrapper).

Inductive result (A : Type) :=
| Ok (a : A)
| Raise (r : raised).
Arguments Ok {A} a.
Arguments Raise {A} r.

(** ** Bytes and hexadecimal text *)

Definition byte_of_N (n : N) : byte :=
  match Byte.of_N n with Some b => b | None => x00 end.

(** The [k] big-endian bytes of an unsigned integer below [256^k], as
    [struct.pack] gives them.  For a larger integer [struct.pack] raises
    [struct.error]; here the value is taken modulo [256^k], and the
    properties that need a generated identifier assume the generator in its
    range ([generator_in_range] below). *)
Fixpoint pack_be (k : nat) (n : N) : list byte :=
  match k with
  | O => []
  | S k' => pack_be k' (n / 256)%N ++ [byte_of_N (n mod 256)%N]
  end.

Definition hex_digit (n : N) : ascii :=
  match n with
  | 0 => "0" | 1 => "1" | 2 => "2" | 3 => "3" | 4 => "4" | 5 => "5" | 6 => "6"
  | 7 => "7" | 8 => "8" | 9 => "9" | 10 => "a" | 11 => "b" | 12 => "c"
  | 13 => "d" | 14 => "e" | _ => "f"
  end%N%char.

(** [binascii.hexlify(b).decode()]: two lower-case digits per byte. *)
Fixpoint hexlify (b : list byte) : string :=
  match b with
  | [] => ""
  | x :: r =>
      String (hex_digit (Byte.to_N x / 16)%N)
        (String (hex_digit (Byte.to_N x mod 16)%N) (hexlify r))
  end.

(** The value of a hexadecimal digit, upper or lower case. *)
Definition hexval (c : ascii) : option N :=
  let n := N_of_ascii c in
  if ((48 <=? n) && (n <=? 57))%N then Some (n - 48)%N
  else if ((97 <=? n) && (n <=? 102))%N then Some (n - 87)%N
  else if ((65 <=? n) && (n <=? 70))%N then Some (n - 55)%N
  else None.

(** ASCII white space ([Py_ISSPACE]): tab, line feed, vertical tab, form feed,
    carriage return, space. *)
Definition is_space (c : ascii) : bool :=
  let n := N_of_ascii c in (((9 <=? n) && (n <=? 13)) || (n =? 32))%N.

(** [bytes.fromhex(s)]: white space is skipped before each pair of digits, the
    two digits of a pair are adjacent; [None] stands for the [ValueError]. *)
Fixpoint bytes_fromhex (s : string) : option (list byte) :=
  match s with
  | EmptyString => Some []
  | String c rest =>
      if is_space c then bytes_fromhex rest
      else
        match hexval c, rest with
        | Some hi, String d rest' =>
            match hexval d with
            | Some lo =>
                match bytes_fromhex rest' with
                | Some r => Some (byte_of_N (16 * hi + lo)%N :: r)
                | None => None
                end
            | None => None
            end
        | _, _ => None
        end
  end.

(** ** bson.ObjectId *)

(** What [ObjectId()] reads when it generates: the clock ([int(time.time())]),
    the five random bytes of the process ([ObjectId._random()], as a number)
    and the class counter [ObjectId._inc]. *)
Record ObjectIdState := mkState { clock : N; process_random : N; _inc : N }.

(** Python code that may raise and may generate an identifier. *)
Definition Py (A : Type) : Type := ObjectIdState -> result A * ObjectIdState.

Definition ret {A} (a : A) : Py A := fun st => (Ok a, st).
Definition raise {A} (e : exn) : Py A := fun st => (Raise (Exc e), st).
Definition bind {A B} (m : Py A) (k : A -> Py B) : Py B :=
  fun st => match m st with
            | (Ok a, st') => k a st'
            | (Raise r, st') => (Raise r, st')
            end.

Notation "'let*' x ':=' m 'in' k" := (bind m (fun x => k))
  (at level 10, x name, m at level 100, k at level 200).

Definition _MAX_COUNTER_VALUE : N := 16777215.   (* 0xFFFFFF *)

Module ObjectId.

(** [__generate]: 4 bytes of time, 5 random bytes, 3 bytes of counter; the
    counter is advanced modulo [_MAX_COUNTER_VALUE + 1]. *)
Definition __generate : Py ObjectId_t :=
  fun st =>
    let oid := pack_be 4 (clock st) ++ pack_be 5 (process_random st)
               ++ firstn 3 (skipn 1 (pack_be 4 (_inc st))) in
    (Ok (mkObjectId oid),
     mkState (clock st) (process_random st)
             ((_inc st + 1) mod (_MAX_COUNTER_VALUE + 1))%N).

(** [__validate]: an [ObjectId] is copied, a [str] must have 24 characters
    that [bytes.fromhex] accepts, anything else is a [TypeError]. *)
Definition __validate (oid : pyval) : Py ObjectId_t :=
  match oid with
  | VObjectId o => ret (mkObjectId (binary o))
  | VStr s =>
      if (String.length s =? 24)%nat then
        match bytes_fromhex s with
        | Some b => ret (mkObjectId b)
        | None => raise InvalidId
        end
      else raise InvalidId
  | _ => raise (TypeError "id must be an instance of (bytes, str, ObjectId)")
  end.

(** [ObjectId(oid)]. *)
Definition __init__ (oid : pyval) : Py ObjectId_t :=
  match oid with
  | VNone => __generate
  | VBytes b =>
      if (length b =? 12)%nat then ret (mkObjectId b) else __validate oid
  | _ => __validate oid
  end.

(** [ObjectId.is_valid(oid)]: false on a falsy value, otherwise whether
    [ObjectId(oid)] raises [InvalidId] or [TypeError]. *)
Definition is_valid (oid : pyval) : Py bool :=
  if negb (py_bool oid) then ret false
  else fun st =>
    match __init__ oid st with
    | (Ok _, st') => (Ok true, st')
    | (Raise (Exc InvalidId), st') => (Ok false, st')
    | (Raise (Exc (TypeError _)), st') => (Ok false, st')
    | (Raise r, st') => (Raise r, st')
    end.

(** [str(oid)]. *)
Definition __str__ (o : ObjectId_t) : string := hexlify (binary o).

End ObjectId.

(** ** models.py: PyObjectId *)

Module PyObjectId.

(** [PyObjectId()], the [default_factory] of the [id] field. *)
Definition new : Py pyval :=
  let* o := ObjectId.__init__ VNone in ret (VObjectId o).

(** [validate(cls, v)]. *)
Definition validate (v : pyval) : Py pyval :=
  let* ok := ObjectId.is_valid v in
  if negb ok then raise (ValueError "Invalid objectid")
  else let* o := ObjectId.__init__ v in ret (VObjectId o).

(** [__get_validators__]: yields [validate] alone. *)
Definition __get_validators__ : list (pyval -> Py pyval) := [validate].

(** [__modify_schema__(cls, field_schema)]: [field_schema.update(type="string")]. *)
Definition __modify_schema__ (field_schema : gmap string string) : gmap string string :=
  <["type" := "string"]> field_schema.

End PyObjectId.

(** ** Conversions of the interpreter

    The built-in conversions that pydantic's validators fall back on for
    values that are not already of the declared type.  They are taken as an
    interface: [int(s)] of a text or of bytes ([None] for the [ValueError]),
    [b.decode()] ([None] for the [UnicodeDecodeError]), and the limit the
    interpreter puts on the digits of an [int] converted to or from text
    ([sys.get_int_max_str_digits()]: 4300 by default, 0 for no limit). *)
Class PyBuiltins := {
  int_of_str : string -> option Z;
  int_of_bytes : list byte -> option Z;
  bytes_decode : list byte -> option string;
  int_max_str_digits : nat
}.

(** The decimal text of an [int]. *)
Definition str_of_int (z : Z) : string := NilEmpty.string_of_int (Z.to_int z).

(** The number of digits of that text, the sign not counted. *)
Definition int_digits (z : Z) : nat := String.length (str_of_int (Z.abs z)).

(** Whether [str(z)] returns: it raises [ValueError] for an [int] of more
    digits than the limit. *)
Definition int_str_ok `{PyBuiltins} (z : Z) : bool :=
  (int_max_str_digits =? 0)%nat || (int_digits z <=? int_max_str_digits)%nat.

Definition int_limit_error : exn :=
  ValueError "Exceeds the limit for integer string conversion".

(** [len(v)]; [None] when the object has no length. *)
Definition py_len (v : pyval) : option nat :=
  match v with
  | VStr s => Some (String.length s)
  | VBytes b => Some (length b)
  | VList l => Some (length l)
  | VDict d => Some (length d)
  | _ => None
  end.

(** ** JSON documents *)

Inductive json :=
| JNull
| JBool (b : bool)
| JInt (z : Z)
| JStr (s : string)
| JArr (l : list json)
| JObj (o : list (string * json)).



(** ** pydantic: validators, fields, classes *)

Section Pydantic.
Context `{PyBuiltins}.

(** An entry of [json_encoders]: the class it is keyed on, with the function
    applied to the instances of that class.  The source has one kind of
    entry, keyed on [ObjectId]. *)
Inductive json_encoder := on_ObjectId (f : ObjectId_t -> pyval).

(** The built-in [str] at an [ObjectId]: its [__str__]. *)
Definition str (o : ObjectId_t) : pyval := VStr (ObjectId.__str__ o).

Definition str_validator (v : pyval) : Py pyval :=
  match v with
  | VStr s => ret (VStr s)
  | VInt z => if int_str_ok z then ret (VStr (str_of_int z)) else raise int_limit_error
  | VBool b => ret (VStr (if b then "True" else "False"))
  | VBytes b =>
      match bytes_decode b with
      | Some s => ret (VStr s)
      | None => raise (ValueError "'utf-8' codec can't decode bytes")
      end
  | _ => raise StrError
  end.

Definition constr_length_validator (min_length : nat) (v : pyval) : Py pyval :=
  match py_len v with
  | Some v_len =>
      if (v_len <? min_length)%nat then raise (AnyStrMinLengthError min_length)
      else ret v
  | None => raise (TypeError "object has no len()")
  end.

Definition int_validator (v : pyval) : Py pyval :=
  match v with
  | VInt z => ret (VInt z)
  | VBool b => ret (VInt (if b then 1 else 0))
  | VStr s =>
      match int_of_str s with Some z => ret (VInt z) | None => raise IntegerError end
  | VBytes b =>
      match int_of_bytes b with Some z => ret (VInt z) | None => raise IntegerError end
  | _ => raise IntegerError
  end.

(** Annotations of the fields of models.py. *)
Inductive annotation := t_PyObjectId | t_str | t_int | t_Optional (a : annotation).

Inductive default_t := Undefined | Ellipsis | Value (v : pyval).

(** [Field(default, default_factory=, alias=, min_length=)]. *)
Record FieldInfo := Field {
  default : default_t;
  default_factory : option (Py pyval);
  alias : option string;
  min_length : option nat
}.

(** One annotated attribute of a class body. *)
Record field_decl := field {
  name : string;
  type_ : annotation;
  field_info : FieldInfo
}.

(** [Config.json_encoders]. *)
Record Config := { json_encoders : list json_encoder }.

(** A class statement: its base ([None] for [BaseModel]), the fields of its
    body and the [Config] of its body, if any. *)
Inductive ModelClass := class {
  cls_name : string;
  base : option ModelClass;
  body : list field_decl;
  body_config : option Config
}.

(** [fields[name] = f]: a field of that name is replaced where it stands, a
    new one goes last. *)
Fixpoint update_field (fields : list field_decl) (f : field_decl) : list field_decl :=
  match fields with
  | [] => [f]
  | g :: r => if String.eqb (name g) (name f) then f :: r else g :: update_field r f
  end.

(** [cls.__fields__]: the fields of the base, then those of the body. *)
Fixpoint __fields__ (cls : ModelClass) : list field_decl :=
  match cls with
  | class _ b fs _ =>
      fold_left update_field fs
        match b with Some p => __fields__ p | None => [] end
  end.

(** [cls.__config__.json_encoders]: the table of the base, then the entries
    of the body (found first when looked up). *)
Fixpoint __json_encoders__ (cls : ModelClass) : list json_encoder :=
  match cls with
  | class _ b _ c =>
      match c with Some c => json_encoders c | None => [] end
      ++ match b with Some p => __json_encoders__ p | None => [] end
  end.

(** [ModelField]: what pydantic derives from a declaration. *)
Definition field_alias (f : field_decl) : string :=
  match alias (field_info f) with Some a => a | None => name f end.

Definition is_optional (a : annotation) : bool :=
  match a with t_Optional _ => true | _ => false end.

Definition required (f : field_decl) : bool :=
  match default (field_info f), default_factory (field_info f) with
  | Ellipsis, _ => true
  | Value _, _ => false
  | Undefined, Some _ => false
  | Undefined, None => negb (is_optional (type_ f))
  end.

Definition allow_none (f : field_decl) : bool :=
  is_optional (type_ f)
  || match default (field_info f), default_factory (field_info f) with
     | Value VNone, None => true
     | _, _ => false
     end.

(** [field.get_default()]. *)
Definition get_default (f : field_decl) : Py pyval :=
  match default_factory (field_info f) with
  | Some factory => factory
  | None => match default (field_info f) with Value v => ret v | _ => ret VNone end
  end.

(** [find_validators]: a class with [__get_validators__] brings its own; a
    [str] with a length constraint is a [constr]. *)
Fixpoint validators_of (a : annotation) (info : FieldInfo) : list (pyval -> Py pyval) :=
  match a with
  | t_PyObjectId => PyObjectId.__get_validators__
  | t_str =>
      match min_length info with
      | Some n => [str_validator; constr_length_validator n]
      | None => [str_validator]
      end
  | t_int => [int_validator]
  | t_Optional a' => validators_of a' info
  end.

(** Exceptions a validator may raise that become an error of the field:
    [ValueError], [TypeError], [AssertionError] and their subclasses. *)
Definition is_validation_exc (e : exn) : bool :=
  match e with InvalidId => false | _ => true end.

(** [field._apply_validators]: the value on success, the exception of the
    first validator that fails. *)
Fixpoint _apply_validators (vs : list (pyval -> Py pyval)) (v : pyval)
  : Py (pyval + exn) :=
  match vs with
  | [] => ret (inl v)
  | validator :: rest =>
      fun st =>
        match validator v st with
        | (Ok v', st') => _apply_validators rest v' st'
        | (Raise (Exc e), st') =>
            if is_validation_exc e then (Ok (inr e), st') else (Raise (Exc e), st')
        | (Raise r, st') => (Raise r, st')
        end
  end.

(** [field.validate(v, ...)]. *)
Definition ModelField_validate (f : field_decl) (v : pyval) : Py (pyval + exn) :=
  match v with
  | VNone => if allow_none f then ret (inl VNone) else ret (inr NoneIsNotAllowedError)
  | _ => _apply_validators (validators_of (type_ f) (field_info f)) v
  end.

(** The state of the loop of [validate_model]: [values], [fields_set],
    [errors]. *)
Definition vstate : Type := list (string * pyval) * list string * list ErrorWrapper.

(** One turn of the loop, for the field [f]. *)
Definition validate_field (input_data : gmap string pyval) (acc : vstate)
    (f : field_decl) : Py vstate :=
  let '(values, fields_set, errors) := acc in
  match input_data !! field_alias f with
  | None =>
      if required f then ret (values, fields_set, errors ++ [(field_alias f, MissingError)])
      else
        let* value := get_default f in
        ret (values ++ [(name f, value)], fields_set, errors)
  | Some value =>
      let* r := ModelField_validate f value in
      match r with
      | inl v_ => ret (values ++ [(name f, v_)], fields_set ++ [name f], errors)
      | inr e => ret (values, fields_set ++ [name f], errors ++ [(field_alias f, e)])
      end
  end.

Fixpoint validate_fields (input_data : gmap string pyval) (fs : list field_decl)
    (acc : vstate) : Py vstate :=
  match fs with
  | [] => ret acc
  | f :: r =>
      let* acc' := validate_field input_data acc f in
      validate_fields input_data r acc'
  end.

(** [validate_model(model, input_data)]. *)
Definition validate_model (model : ModelClass) (input_data : gmap string pyval)
  : Py vstate :=
  validate_fields input_data (__fields__ model) ([], [], []).

(** An instance of a model: its class, [__dict__] in field order and
    [__fields_set__]. *)
Record BaseModel := instance {
  __class__ : ModelClass;
  __dict__ : list (string * pyval);
  __fields_set__ : list string
}.

(** [cls( **data)]. *)
Definition __init__ (cls : ModelClass) (data : gmap string pyval) : Py BaseModel :=
  fun st =>
    match validate_model cls data st with
    | (Ok (values, fields_set, []), st') => (Ok (instance cls values fields_set), st')
    | (Ok (_, _, errors), st') => (Raise (ValidationError errors), st')
    | (Raise r, st') => (Raise r, st')
    end.

(** [getattr(m, name)]. *)
Fixpoint lookup_attr (d : list (string * pyval)) (n : string) : option pyval :=
  match d with
  | [] => None
  | (k, v) :: r => if String.eqb k n then Some v else lookup_attr r n
  end.

(** [d[name] = value]: the entry is replaced where it stands, a new one goes
    last. *)
Fixpoint dict_set (d : list (string * pyval)) (n : string) (value : pyval)
  : list (string * pyval) :=
  match d with
  | [] => [(n, value)]
  | (k, v) :: r =>
      if String.eqb k n then (k, value) :: r else (k, v) :: dict_set r n value
  end.

(** [m.name = value], under the [Config] of models.py, which sets neither
    [validate_assignment] nor [allow_mutation] nor [extra]: a name that is
    no field is a [ValueError]; for a field the value is stored as it is,
    with no validator run, and the field counts as set.  The instance after
    the assignment is returned.  Names are those of ordinary attributes:
    private and dunder names, which pydantic sets on the object itself, are
    left out, as are its other ways round validation, [construct] and
    [copy(update=...)]. *)
Definition __setattr__ (m : BaseModel) (n : string) (value : pyval) : result BaseModel :=
  if existsb (fun f => String.eqb (name f) n) (__fields__ (__class__ m)) then
    Ok (instance (__class__ m) (dict_set (__dict__ m) n value)
          (if existsb (String.eqb n) (__fields_set__ m) then __fields_set__ m
           else __fields_set__ m ++ [n]))
  else Raise (Exc (ValueError "object has no field")).

Definition getattr (m : BaseModel) (n : string) : option pyval :=
  lookup_attr (__dict__ m) n.

(** *** Rendering to JSON *)

(** [pydantic_encoder], for a value that has no entry in [json_encoders]. *)
Definition pydantic_encoder (v : pyval) : result pyval :=
  match v with
  | VBytes b =>
      match bytes_decode b with
      | Some s => Ok (VStr s)
      | None => Raise (Exc (ValueError "'utf-8' codec can't decode bytes"))
      end
  | _ => Raise (Exc (TypeError "Object is not JSON serializable"))
  end.

(** [custom_pydantic_encoder(type_encoders, obj)]: the encoder keyed on a
    class of [obj], when the table has one. *)
Definition custom_pydantic_encoder (type_encoders : list json_encoder)
    (obj : pyval) : result pyval :=
  match obj, type_encoders with
  | VObjectId o, on_ObjectId encoder :: _ => Ok (encoder o)
  | _, _ => pydantic_encoder obj
  end.

(** [json.dumps(v, default=...)], on the document: the values JSON has are
    rendered as such (an [int] of more digits than the limit is a
    [ValueError]), any other goes through [default] and the outcome is
    rendered in turn.  [depth] bounds the nesting, as the interpreter's
    recursion limit does. *)
Fixpoint json_dumps (depth : nat) (default : pyval -> result pyval) (v : pyval)
  : result json :=
  match depth with
  | O => Raise (Exc (ValueError "recursion limit"))
  | S depth' =>
      match v with
      | VNone => Ok JNull
      | VBool b => Ok (JBool b)
      | VInt z => if int_str_ok z then Ok (JInt z) else Raise (Exc int_limit_error)
      | VStr s => Ok (JStr s)
      | VList l =>
          match
            (fix items (l : list pyval) : result (list json) :=
               match l with
               | [] => Ok []
               | x :: r =>
                   match json_dumps depth' default x with
                   | Ok j => match items r with
                             | Ok js => Ok (j :: js)
                             | Raise e => Raise e
                             end
                   | Raise e => Raise e
                   end
               end) l
          with
          | Ok js => Ok (JArr js)
          | Raise e => Raise e
          end
      | VDict d =>
          match
            (fix items (d : list (string * pyval)) : result (list (string * json)) :=
               match d with
               | [] => Ok []
               | (k, x) :: r =>
                   match json_dumps depth' default x with
                   | Ok j => match items r with
                             | Ok js => Ok ((k, j) :: js)
                             | Raise e => Raise e
                             end
                   | Raise e => Raise e
                   end
               end) d
          with
          | Ok js => Ok (JObj js)
          | Raise e => Raise e
          end
      | _ =>
          match default v with
          | Ok v' => json_dumps depth' default v'
          | Raise e => Raise e
          end
      end
  end.

Definition recursion_limit : nat := 1000.

(** The key a field is rendered under: its alias when [by_alias]. *)
Definition dict_key (cls : ModelClass) (by_alias : bool) (field_key : string) : string :=
  if by_alias then
    match List.find (fun f => String.eqb (name f) field_key) (__fields__ cls) with
    | Some f => field_alias f
    | None => field_key
    end
  else field_key.

(** [m.json(by_alias=...)].  FastAPI renders a response with
    [by_alias=True]; pydantic's own default is [False]. *)
Definition json_ (by_alias : bool) (m : BaseModel) : result json :=
  json_dumps recursion_limit
    (custom_pydantic_encoder (__json_encoders__ (__class__ m)))
    (VDict (map (fun kv => (dict_key (__class__ m) by_alias (fst kv), snd kv))
                (__dict__ m))).

(** ** models.py: the four models *)

Definition MongoBaseModel : ModelClass :=
  class "MongoBaseModel" None
    [ field "id" t_PyObjectId (Field Undefined (Some PyObjectId.new) (Some "_id") None) ]
    (Some {| json_encoders := [on_ObjectId str] |}).

Definition CarBase : ModelClass :=
  class "CarBase" (Some MongoBaseModel)
    [ field "brand" t_str (Field Ellipsis None None (Some 3%nat));
      field "make" t_str (Field Ellipsis None None (Some 3%nat));
      field "year" t_int (Field Ellipsis None None None);
      field "price" t_int (Field Ellipsis None None None);
      field "km" t_int (Field Ellipsis None None None);
      field "cm3" t_int (Field Ellipsis None None None) ]
    None.

Definition CarUpdate : ModelClass :=
  class "CarUpdate" (Some MongoBaseModel)
    [ field "price" (t_Optional t_int) (Field (Value VNone) None None None) ]
    None.

Definition CarDB : ModelClass :=
  class "CarDB" (Some CarBase) [] None.

End Pydantic.

(** ** The conversions on ASCII text

    An instance of the interface for evaluating examples: the conversions as
    CPython performs them on text and bytes whose characters are all ASCII. *)

Definition is_digit (c : ascii) : bool :=
  let n := N_of_ascii c in ((48 <=? n) && (n <=? 57))%N.

Fixpoint lstrip (l : list ascii) : list ascii :=
  match l with
  | c :: r => if is_space c then lstrip r else l
  | [] => []
  end.

Definition strip (l : list ascii) : list ascii := rev (lstrip (rev (lstrip l))).

(** Digits, with single underscores between digits. *)
Fixpoint parse_digits (l : list ascii) (acc : Z) (after_digit : bool) : option Z :=
  match l with
  | [] => if after_digit then Some acc else None
  | c :: r =>
      if is_digit c then
        parse_digits r (10 * acc + Z.of_N (N_of_ascii c - 48)) true
      else if (Ascii.eqb c "_" && after_digit)%bool then parse_digits r acc false
      else None
  end.

Definition parse_int (l : list ascii) : option Z :=
  match strip l with
  | "+"%char :: r => parse_digits r 0 false
  | "-"%char :: r => Z.opp <$> parse_digits r 0 false
  | r => parse_digits r 0 false
  end.

Definition is_ascii (c : ascii) : bool := (N_of_ascii c <? 128)%N.

(** The default limit on the digits of an [int] read from or written as text. *)
Definition default_max_str_digits : nat := 4300.

Definition within_digit_limit (l : list ascii) : bool :=
  (length (List.filter is_digit l) <=? default_max_str_digits)%nat.

Definition ascii_int_of_str (s : string) : option Z :=
  let l := list_ascii_of_string s in
  if forallb is_ascii l && within_digit_limit l then parse_int l else None.

Definition ascii_bytes_decode (b : list byte) : option string :=
  let l := map ascii_of_byte b in
  if forallb is_ascii l then Some (string_of_list_ascii l) else None.

Definition ascii_int_of_bytes (b : list byte) : option Z :=
  let l := map ascii_of_byte b in
  if forallb is_ascii l && within_digit_limit l then parse_int l else None.

Definition ascii_builtins : PyBuiltins :=
  {| int_of_str := ascii_int_of_str;
     int_of_bytes := ascii_int_of_bytes;
     bytes_decode := ascii_bytes_decode;
     int_max_str_digits := default_max_str_digits |}.

(** ** main.py: the bootstrap

    The module body is a sequence of statements run once, at import.  Lists
    are objects on a heap and names hold references, so that what a later
    assignment to a name can and cannot change is part of the model. *)

Module main.

(** decouple: where [config] looks, the process environment first, then
    the settings file of the repository ([.env] or [settings.ini]). *)
Record ConfigSource := {
  environ : gmap string string;
  repository : gmap string string
}.

Inductive error :=
| UndefinedValueError (option : string)
| NameError (name : string).

Definition loc := nat.

(** [Middleware(cls, **options)] as [add_middleware] records it: the
    options are kept as passed, list arguments by reference. *)
Record Middleware := {
  cls : string;
  allow_origins : loc;
  allow_credentials : bool;
  allow_methods : loc;
  allow_headers : loc
}.

Record Route := { router : list string; prefix : string; tags : list string }.

Record FastAPI := {
  user_middleware : list Middleware;
  on_startup : list string;
  on_shutdown : list string;
  routes : list Route
}.

(** The globals of the module, the heap of list objects, and the server
    started by [uvicorn.run], if any. *)
Record Globals := {
  heap : list (list string);
  DB_URL : option string;
  DB_NAME : option string;
  origins : option loc;
  app : option FastAPI;
  serving : option string
}.

Definition empty_globals : Globals :=
  {| heap := []; DB_URL := None; DB_NAME := None; origins := None;
     app := None; serving := None |}.

(** A statement: it may raise, and it leaves the globals as they were when
    it raised. *)
Definition Stmt : Type := Globals -> option error * Globals.

(** [config(option, cast=str)] with no default. *)
Definition config (src : ConfigSource) (option : string) : error + string :=
  match environ src !! option with
  | Some value => inr value
  | None =>
      match repository src !! option with
      | Some value => inr value
      | None => inl (UndefinedValueError option)
      end
  end.

(** A list display: a new object on the heap. *)
Definition new_list (l : list string) (g : Globals) : loc * Globals :=
  (length (heap g),
   {| heap := heap g ++ [l]; DB_URL := DB_URL g; DB_NAME := DB_NAME g;
      origins := origins g; app := app g; serving := serving g |}).

Definition set_app (a : FastAPI) (g : Globals) : Globals :=
  {| heap := heap g; DB_URL := DB_URL g; DB_NAME := DB_NAME g;
     origins := origins g; app := Some a; serving := serving g |}.

Definition set_origins (r : loc) (g : Globals) : Globals :=
  {| heap := heap g; DB_URL := DB_URL g; DB_NAME := DB_NAME g;
     origins := Some r; app := app g; serving := serving g |}.

(** Lines 12 and 13. *)
Definition assign_DB_URL (src : ConfigSource) : Stmt := fun g =>
  match config src "DB_URL" with
  | inr v => (None,
              {| heap := heap g; DB_URL := Some v; DB_NAME := DB_NAME g;
                 origins := origins g; app := app g; serving := serving g |})
  | inl e => (Some e, g)
  end.

Definition assign_DB_NAME (src : ConfigSource) : Stmt := fun g =>
  match config src "DB_NAME" with
  | inr v => (None,
              {| heap := heap g; DB_URL := DB_URL g; DB_NAME := Some v;
                 origins := origins g; app := app g; serving := serving g |})
  | inl e => (Some e, g)
  end.

(** Line 15: [origins = ["*"]]. *)
Definition assign_origins_star : Stmt := fun g =>
  let '(r, g1) := new_list ["*"] g in (None, set_origins r g1).

(** Line 17: [app = FastAPI()]. *)
Definition assign_app : Stmt := fun g =>
  (None, set_app {| user_middleware := []; on_startup := [];
                    on_shutdown := []; routes := [] |} g).

(** Lines 18 to 24: [app.add_middleware(CORSMiddleware, ...)]; the entry is
    inserted at the front of [user_middleware]. *)
Definition add_middleware : Stmt := fun g =>
  match app g, origins g with
  | None, _ => (Some (NameError "app"), g)
  | _, None => (Some (NameError "origins"), g)
  | Some a, Some o =>
      let '(m, g1) := new_list ["*"] g in
      let '(h, g2) := new_list ["*"] g1 in
      (None,
       set_app {| user_middleware :=
                    {| cls := "CORSMiddleware"; allow_origins := o;
                       allow_credentials := true; allow_methods := m;
                       allow_headers := h |} :: user_middleware a;
                  on_startup := on_startup a; on_shutdown := on_shutdown a;
                  routes := routes a |} g2)
  end.

(** Lines 26 to 32: the two [on_event] handlers are registered. *)
Definition register_handlers : Stmt := fun g =>
  match app g with
  | None => (Some (NameError "app"), g)
  | Some a =>
      (None,
       set_app {| user_middleware := user_middleware a;
                  on_startup := on_startup a ++ ["startup_db_client"];
                  on_shutdown := on_shutdown a ++ ["shutdown_db_client"];
                  routes := routes a |} g)
  end.

(** Line 34: [app.include_router(cars_router, prefix="/cars", tags=["cars"])]. *)
Definition include_router (cars_router : list string) : Stmt := fun g =>
  match app g with
  | None => (Some (NameError "app"), g)
  | Some a =>
      (None,
       set_app {| user_middleware := user_middleware a;
                  on_startup := on_startup a; on_shutdown := on_shutdown a;
                  routes := routes a ++ [ {| router := cars_router;
                                             prefix := "/cars";
                                             tags := ["cars"] |} ] |} g)
  end.

(** Lines 36 to 41: [origins = [...]], a new list bound to the name. *)
Definition assign_origins_localhost : Stmt := fun g =>
  let '(r, g1) := new_list ["http://localhost"; "http://localhost:8080";
                            "http://localhost:3000"; "http://localhost:8000"] g in
  (None, set_origins r g1).

(** Lines 43 to 47: the server is started when the module is the program. *)
Definition run_if_main (__name__ : string) : Stmt := fun g =>
  if String.eqb __name__ "__main__" then
    (None, {| heap := heap g; DB_URL := DB_URL g; DB_NAME := DB_NAME g;
              origins := origins g; app := app g; serving := Some "main:app" |})
  else (None, g).

(** Running statements in order, up to the first that raises. *)
Fixpoint exec (body : list Stmt) (g : Globals) : option error * Globals :=
  match body with
  | [] => (None, g)
  | s :: r =>
      match s g with
      | (None, g') => exec r g'
      | (Some e, g') => (Some e, g')
      end
  end.

(** The module body up to line 34, and after line 41. *)
Definition head_of_module (src : ConfigSource) (cars_router : list string) : list Stmt :=
  [ assign_DB_URL src; assign_DB_NAME src; assign_origins_star; assign_app;
    add_middleware; register_handlers; include_router cars_router ].

(** main.py. *)
Definition module (src : ConfigSource) (cars_router : list string)
    (__name__ : string) : list Stmt :=
  head_of_module src cars_router
  ++ [ assign_origins_localhost ] ++ [ run_if_main __name__ ].

(** main.py with lines 36 to 41 taken out. *)
Definition module_without_reassignment (src : ConfigSource)
    (cars_router : list string) (__name__ : string) : list Stmt :=
  head_of_module src cars_router ++ [ run_if_main __name__ ].

(** Starlette's [CORSMiddleware.__init__], run when the application builds
    its middleware stack: it reads the option lists at that moment. *)
Definition ALL_METHODS : list string :=
  ["DELETE"; "GET"; "HEAD"; "OPTIONS"; "PATCH"; "POST"; "PUT"].

Record CORSMiddleware := {
  cors_allow_origins : list string;
  cors_allow_methods : list string;
  cors_allow_all_origins : bool;
  cors_allow_all_headers : bool;
  cors_allow_credentials : bool
}.

Definition contains (l : list string) (x : string) : bool :=
  existsb (String.eqb x) l.

Definition CORSMiddleware__init__ (hp : list (list string)) (m : Middleware)
  : option CORSMiddleware :=
  match hp !! allow_origins m, hp !! allow_methods m, hp !! allow_headers m with
  | Some os, Some ms, Some hs =>
      Some {| cors_allow_origins := os;
              cors_allow_methods := if contains ms "*" then ALL_METHODS else ms;
              cors_allow_all_origins := contains os "*";
              cors_allow_all_headers := contains hs "*";
              cors_allow_credentials := allow_credentials m |}
  | _, _, _ => None
  end.

(** [build_middleware_stack]: every recorded middleware is instantiated. *)
Definition build_middleware_stack (g : Globals) : option (list (option CORSMiddleware)) :=
  match app g with
  | Some a => Some (map (CORSMiddleware__init__ (heap g)) (user_middleware a))
  | None => None
  end.

(** [CORSMiddleware.is_allowed_origin] (no [allow_origin_regex] is given). *)
Definition is_allowed_origin (c : CORSMiddleware) (origin : string) : bool :=
  if cors_allow_all_origins c then true else contains (cors_allow_origins c) origin.

(** What line 36 would do if it changed the list in place
    ([origins[:] = [...]]) instead of binding the name anew. *)
Definition overwrite_origins_in_place : Stmt := fun g =>
  match origins g with
  | None => (Some (NameError "origins"), g)
  | Some r =>
      (None,
       {| heap := <[r := ["http://localhost"; "http://localhost:8080";
                          "http://localhost:3000"; "http://localhost:8000"]]> (heap g);
          DB_URL := DB_URL g; DB_NAME := DB_NAME g; origins := origins g;
          app := app g; serving := serving g |})
  end.

(** *** Vocabulary for the bootstrap *)


Definition both_settings : ConfigSource :=
  {| environ := {["DB_URL" := "mongodb://localhost:27017"]};
     repository := {["DB_NAME" := "carsdb"]} |}.

(** The policy that allows everything. *)
Definition allow_all : CORSMiddleware :=
  {| cors_allow_origins := ["*"];
     cors_allow_methods := ALL_METHODS;
     cors_allow_all_origins := true;
     cors_allow_all_headers := true;
     cors_allow_credentials := true |}.


End main.

(** ** Vocabulary of the specification *)

Definition is_hexdigit (c : ascii) : bool :=
  match hexval c with Some _ => true | None => false end.


(** A text of 24 hexadecimal digits. *)
Definition is_hex24 (v : pyval) : bool :=
  match v with
  | VStr s =>
      (String.length s =? 24)%nat && forallb is_hexdigit (list_ascii_of_string s)
  | _ => false
  end.

(** The attributes of the instance a construction returned. *)
Definition attrs (r : result BaseModel * ObjectIdState) : option (list (string * pyval)) :=
  match r with
  | (Ok m, _) => Some (__dict__ m)
  | (Raise _, _) => None
  end.

(** Example data: a car, the same car with an [_id] that is no identifier,
    with an [_id] of 22 digits and 2 spaces, with its year as text, and data
    that has an [_id] alone. *)
Definition fiat : gmap string pyval :=
  <["brand" := VStr "Fiat"]> (<["make" := VStr "Panda"]> (<["year" := VInt 2011]>
  (<["price" := VInt 4500]> (<["km" := VInt 120000]> (<["cm3" := VInt 1200]> ∅))))).

(** The attributes and the supplied fields of the car built from [fiat] in
    the state [st0]. *)
Definition fiat_attrs : list (string * pyval) :=
  [("id", VObjectId (mkObjectId [x00; x00; x00; x00; x00; x00;
                                 x00; x00; x00; x00; x00; x00]));
   ("brand", VStr "Fiat"); ("make", VStr "Panda"); ("year", VInt 2011);
   ("price", VInt 4500); ("km", VInt 120000); ("cm3", VInt 1200)].

Definition fiat_set : list string := ["brand"; "make"; "year"; "price"; "km"; "cm3"].



Definition fiat_text_year : gmap string pyval := <["year" := VStr "2011"]> fiat.





(** ** pydantic's error messages ([msg_template]) *)

Definition msg (e : exn) : string :=
  match e with
  | ValueError m => m
  | TypeError m => m
  | InvalidId => "not a valid ObjectId"
  | MissingError => "field required"
  | NoneIsNotAllowedError => "none is not an allowed value"
  | IntegerError => "value is not a valid integer"
  | StrError => "str type expected"
  | AnyStrMinLengthError n =>
      "ensure this value has at least " ++ str_of_int (Z.of_nat n) ++ " characters"
  end.

(** ** pydantic: export to a dictionary *)

(** [m.dict(by_alias=..., exclude_unset=...)]: the attributes in field order,
    those not in [__fields_set__] left out when [exclude_unset], each under
    its alias when [by_alias].  The values of the four models are not
    containers, so [_get_value] returns them as they are. *)
Definition dict_ (by_alias exclude_unset : bool) (m : BaseModel) : list (string * pyval) :=
  map (fun kv => (dict_key (__class__ m) by_alias (fst kv), snd kv))
      (List.filter (fun kv => negb exclude_unset
                         || existsb (String.eqb (fst kv)) (__fields_set__ m))
              (__dict__ m)).

(** ** More vocabulary of the specification *)

(** [c.lower()] of an ASCII character, and [s.lower()]. *)
Definition to_lower (c : ascii) : ascii :=
  let n := N_of_ascii c in
  if ((65 <=? n) && (n <=? 90))%N then ascii_of_N (n + 32) else c.

Fixpoint lower (s : string) : string :=
  match s with
  | EmptyString => EmptyString
  | String c r => String (to_lower c) (lower r)
  end.






(** Whether the data has a value under a key. *)
Definition has_key (data : gmap string pyval) (k : string) : bool :=
  match data !! k with Some _ => true | None => false end.

(** ** Vocabulary for the properties *)

Definition st0 : ObjectIdState := mkState 0 0 0.

(** The outcome of a computation from the state [st0]. *)
Definition eval {A} (m : Py A) : result A := fst (m st0).

Definition stateless {A} (m : Py A) : Prop := forall st, m st = (eval m, st).

Section ValidationVocabulary.
Context `{PyBuiltins}.

(** A validator that leaves the generator alone and raises, if it raises,
    an exception that pydantic turns into an error of the field. *)
Definition tame (validator : pyval -> Py pyval) : Prop :=
  forall v, stateless (validator v)
            /\ match eval (validator v) with
               | Ok _ => True
               | Raise (Exc e) => is_validation_exc e = true
               | Raise (ValidationError _) => False
               end.

(** What [field.validate] makes of a value: the validated value or the
    exception of the error. *)
Definition outcome (f : field_decl) (v : pyval) : pyval + exn :=
  match eval (ModelField_validate f v) with
  | Ok x => x
  | Raise _ => inr InvalidId
  end.

(** The errors, the entry of [__dict__] and the entry of [__fields_set__]
    that a field contributes. *)
Definition field_error (data : gmap string pyval) (f : field_decl) : list ErrorWrapper :=
  match data !! field_alias f with
  | Some v => match outcome f v with inr e => [(field_alias f, e)] | inl _ => [] end
  | None => if required f then [(field_alias f, MissingError)] else []
  end.

Definition field_set (data : gmap string pyval) (f : field_decl) : list string :=
  match data !! field_alias f with Some _ => [name f] | None => [] end.

Definition field_entry (data : gmap string pyval) (f : field_decl)
    (st : ObjectIdState) : list (string * pyval) * ObjectIdState :=
  match data !! field_alias f with
  | Some v => (match outcome f v with inl x => [(name f, x)] | inr _ => [] end, st)
  | None =>
      if required f then ([], st)
      else match get_default f st with
           | (Ok d, st') => ([(name f, d)], st')
           | (Raise _, st') => ([], st')
           end
  end.

Fixpoint entries (data : gmap string pyval) (fs : list field_decl)
    (st : ObjectIdState) : list (string * pyval) * ObjectIdState :=
  match fs with
  | [] => ([], st)
  | f :: r =>
      let '(a, st1) := field_entry data f st in
      let '(b, st2) := entries data r st1 in
      (a ++ b, st2)
  end.

(** A field whose default, if it has one, can always be produced. *)
Definition total_default (f : field_decl) : Prop :=
  forall st, exists d st', get_default f st = (Ok d, st').

Definition errors_of (cls : ModelClass) (data : gmap string pyval) : list ErrorWrapper :=
  flat_map (field_error data) (__fields__ cls).

(** The field declarations of models.py, by name. *)
Definition id_field : field_decl :=
  field "id" t_PyObjectId (Field Undefined (Some PyObjectId.new) (Some "_id") None).

Definition str_field (k : string) : field_decl :=
  field k t_str (Field Ellipsis None None (Some 3%nat)).

Definition int_field (k : string) : field_decl :=
  field k t_int (Field Ellipsis None None None).

Definition optional_int_field (k : string) : field_decl :=
  field k (t_Optional t_int) (Field (Value VNone) None None None).

(** Where the identifier of an instance comes from: generated when the data
    has no [_id], made by [PyObjectId.validate] from the value otherwise. *)
Definition id_source (data : gmap string pyval) (st : ObjectIdState)
    (o : ObjectId_t) (st' : ObjectIdState) : Prop :=
  match data !! "_id" with
  | None => ObjectId.__generate st = (Ok o, st')
  | Some v => st' = st /\ PyObjectId.validate v st = (Ok (VObjectId o), st)
  end.

(** The four models of models.py. *)
Definition models : list ModelClass := [MongoBaseModel; CarBase; CarUpdate; CarDB].

End ValidationVocabulary.

(** * Properties *)

(** ** Code that neither reads nor advances the generator *)

Lemma stateless_ret {A} (a : A) : stateless (ret a).
Proof. intros st. reflexivity. Qed.

Lemma stateless_raise {A} (e : exn) : stateless (@raise A e).
Proof. intros st. reflexivity. Qed.

Lemma stateless_bind {A B} (m : Py A) (k : A -> Py B) :
  stateless m -> (forall a, stateless (k a)) -> stateless (bind m k).
Proof.
  intros Hm Hk st. unfold eval, bind. rewrite (Hm st), (Hm st0).
  destruct (eval m) as [a|r]; [|reflexivity].
  rewrite (Hk a st), (Hk a st0). reflexivity.
Qed.

Create HintDb py.
#[local] Hint Resolve stateless_ret stateless_raise : py.

Lemma stateless__validate (v : pyval) : stateless (ObjectId.__validate v).
Proof.
  destruct v; cbn; auto with py.
  destruct (String.length s =? 24)%nat; auto with py.
  destruct (bytes_fromhex s); auto with py.
Qed.

Lemma stateless__init__ (v : pyval) : v <> VNone -> stateless (ObjectId.__init__ v).
Proof.
  destruct v; try congruence; intros _; try apply stateless__validate.
  cbn. destruct (length b =? 12)%nat; [auto with py | apply (stateless__validate (VBytes b))].
Qed.

Lemma stateless_is_valid (v : pyval) : stateless (ObjectId.is_valid v).
Proof.
  unfold ObjectId.is_valid. destruct (negb (py_bool v)) eqn:E; [auto with py|].
  assert (Hv : v <> VNone) by (intros ->; discriminate).
  intros st. unfold eval.
  rewrite (stateless__init__ v Hv st), (stateless__init__ v Hv st0).
  destruct (eval (ObjectId.__init__ v)) as [o|[[]|]]; reflexivity.
Qed.

Lemma stateless_validate (v : pyval) : stateless (PyObjectId.validate v).
Proof.
  destruct (pyval_is_None v) eqn:E.
  - destruct v; try discriminate. intros st; reflexivity.
  - unfold PyObjectId.validate. apply stateless_bind; [apply stateless_is_valid|].
    intros ok. destruct (negb ok); [auto with py|].
    apply stateless_bind; [|auto with py].
    apply stateless__init__. intros ->; discriminate.
Qed.

(** ** The identifier adapter *)

Ltac split_ifs :=
  repeat match goal with
    | |- context [if ?c then _ else _] => destruct c eqn:?
    | |- context [match bytes_fromhex ?s with _ => _ end] =>
        destruct (bytes_fromhex s) eqn:?
    end.

Lemma validate_cases (v : pyval) (st : ObjectIdState) :
  (ObjectId.is_valid v st = (Ok true, st) /\
   exists o, ObjectId.__init__ v st = (Ok o, st) /\
             PyObjectId.validate v st = (Ok (VObjectId o), st))
  \/
  (ObjectId.is_valid v st = (Ok false, st) /\
   PyObjectId.validate v st = (Raise (Exc (ValueError "Invalid objectid")), st)).
Proof.
  unfold PyObjectId.validate, ObjectId.is_valid, bind.
  destruct v; cbn; split_ifs; cbn;
    try (right; split; reflexivity);
    try (left; split; [reflexivity | eexists; split; reflexivity]);
    try discriminate.
Qed.

(** C3. [PyObjectId.validate(v)] returns [ObjectId(v)] exactly when
    [ObjectId.is_valid(v)] holds, and otherwise raises the [ValueError] whose
    message is "Invalid objectid"; neither outcome touches the generator. *)
Theorem PyObjectId_validate_spec (v : pyval) (st : ObjectIdState) :
  (ObjectId.is_valid v st = (Ok true, st) /\
   exists o, ObjectId.__init__ v st = (Ok o, st) /\
             PyObjectId.validate v st = (Ok (VObjectId o), st))
  \/
  (ObjectId.is_valid v st = (Ok false, st) /\
   PyObjectId.validate v st = (Raise (Exc (ValueError "Invalid objectid")), st)).
Proof.
  unfold PyObjectId.validate, ObjectId.is_valid, bind.
  destruct v; cbn; split_ifs; cbn;
    try (right; split; reflexivity);
    try (left; split; [reflexivity | eexists; split; reflexivity]);
    try discriminate.
Qed.

(** Whatever the schema of the field said, its type is declared as a string. *)
Lemma schema_type_is_string (field_schema : gmap string string) :
  PyObjectId.__modify_schema__ field_schema !! "type" = Some "string".
Proof. apply lookup_insert_eq. Qed.

(** Hexadecimal digits are not white space, and a text of [2 * n] of them
    is the hexadecimal form of [n] bytes. *)
Lemma hexdigit_not_space (c : ascii) : is_hexdigit c = true -> is_space c = false.
Proof.
  destruct c as [[] [] [] [] [] [] [] []]; vm_compute; intros; congruence.
Qed.

Lemma fromhex_hexdigits (n : nat) : forall s : string,
  String.length s = (2 * n)%nat ->
  forallb is_hexdigit (list_ascii_of_string s) = true ->
  exists b, bytes_fromhex s = Some b /\ length b = n.
Proof.
  induction n as [|n IH]; intros s Hlen Hhex.
  - destruct s; [|discriminate]. exists []. split; reflexivity.
  - destruct s as [|c [|d rest]]; try (cbn in Hlen; lia).
    cbn in Hhex. apply andb_prop in Hhex as [Hc Hrest].
    apply andb_prop in Hrest as [Hd Hrest].
    destruct (IH rest) as (b & Hb & Hl); [cbn in Hlen; lia | assumption |].
    cbn [bytes_fromhex]. rewrite (hexdigit_not_space c Hc).
    unfold is_hexdigit in Hc, Hd.
    destruct (hexval c) as [hi|]; [|discriminate].
    destruct (hexval d) as [lo|]; [|discriminate].
    rewrite Hb. eexists. split; [reflexivity | cbn; lia].
Qed.

Lemma is_valid_hex24 (v : pyval) (st : ObjectIdState) :
  is_hex24 v = true -> ObjectId.is_valid v st = (Ok true, st).
Proof.
  destruct v; try discriminate. cbn [is_hex24]. intros Hv.
  apply andb_prop in Hv as [Hlen Hhex]. apply Nat.eqb_eq in Hlen.
  destruct (fromhex_hexdigits 12 s Hlen Hhex) as (b & Hb & _).
  unfold ObjectId.is_valid. cbn. rewrite Hlen. cbn. rewrite Hb. reflexivity.
Qed.

(** C10. [PyObjectId.validate] succeeds exactly on the values that
    [ObjectId.is_valid] accepts.  Those include every text of 24 hexadecimal
    digits, and also every sequence of 12 bytes and every [ObjectId], which
    are not such texts. *)
Theorem validate_accepts_beyond_hex24 (st : ObjectIdState) :
  (forall v, (exists o, PyObjectId.validate v st = (Ok o, st))
             <-> ObjectId.is_valid v st = (Ok true, st))
  /\ (forall v, is_hex24 v = true -> ObjectId.is_valid v st = (Ok true, st))
  /\ (forall b, PyObjectId.validate (VBytes b) st =
                 if (length b =? 12)%nat then (Ok (VObjectId (mkObjectId b)), st)
                 else (Raise (Exc (ValueError "Invalid objectid")), st))
  /\ (forall o, PyObjectId.validate (VObjectId o) st = (Ok (VObjectId o), st))
  /\ (exists v, is_hex24 v = false /\ ObjectId.is_valid v st = (Ok true, st)).
Proof.
  split; [|split; [|split; [|split]]].
  - intros v. destruct (validate_cases v st) as [(Hv & o & _ & Ho) | (Hv & Hr)].
    + split; [intros _; exact Hv | intros _; eexists; exact Ho].
    + split; [intros [o Ho]; congruence | intros Hv'; congruence].
  - intros v. apply is_valid_hex24.
  - intros b. unfold PyObjectId.validate, ObjectId.is_valid, bind. cbn.
    destruct b as [|x b]; [reflexivity|]. cbn.
    destruct (length b =? 11)%nat; reflexivity.
  - intros [b]. reflexivity.
  - exists (VObjectId (mkObjectId [])). split; reflexivity.
Qed.


Lemma validate_accepts_beyond_hex24_witness :
  is_hex24 (VStr "0123456789abcdef01234567") = true
  /\ ObjectId.is_valid (VStr "0123456789abcdef01234567") st0 = (Ok true, st0).
Proof.
  split; [reflexivity|].
  apply (proj1 (proj2 (validate_accepts_beyond_hex24 st0))). reflexivity.
Defined.

(** ** The bootstrap *)

Section Bootstrap.
Import main.



Lemma exec_configured src cars_router url dbname tail :
  config src "DB_URL" = inr url ->
  config src "DB_NAME" = inr dbname ->
  exec (head_of_module src cars_router ++ tail) empty_globals =
  exec tail
    {| heap := [["*"]; ["*"]; ["*"]];
       DB_URL := Some url; DB_NAME := Some dbname; origins := Some 0%nat;
       app := Some {| user_middleware :=
                        [ {| cls := "CORSMiddleware"; allow_origins := 0%nat;
                             allow_credentials := true; allow_methods := 1%nat;
                             allow_headers := 2%nat |} ];
                      on_startup := ["startup_db_client"];
                      on_shutdown := ["shutdown_db_client"];
                      routes := [ {| router := cars_router; prefix := "/cars";
                                     tags := ["cars"] |} ] |};
       serving := None |}.
Proof.
  intros Hu Hn. unfold head_of_module. cbn [List.app exec].
  unfold assign_DB_URL at 1. rewrite Hu.
  unfold assign_DB_NAME at 1. rewrite Hn. reflexivity.
Qed.




(** C6. With both settings found, the middleware stack built from the
    module's final state is the single CORS policy that allows every
    origin, credentials, every method and every header; it is the same
    stack, from the same recorded middleware, when lines 36 to 41 are taken
    out of the module, although the name [origins] then refers to another
    list. *)
Theorem cors_policy_allows_all src cars_router __name__ url dbname :
  config src "DB_URL" = inr url ->
  config src "DB_NAME" = inr dbname ->
  exists g g',
    exec (module src cars_router __name__) empty_globals = (None, g)
    /\ exec (module_without_reassignment src cars_router __name__) empty_globals
       = (None, g')
    /\ build_middleware_stack g = Some [Some allow_all]
    /\ build_middleware_stack g' = build_middleware_stack g
    /\ app g' = app g
    /\ origins g' <> origins g
    /\ (forall origin, is_allowed_origin allow_all origin = true).
Proof.
  intros Eu En. unfold module, module_without_reassignment.
  rewrite !(exec_configured _ _ _ _ _ Eu En). cbn. unfold run_if_main.
  destruct (String.eqb __name__ "__main__"); cbn;
    do 2 eexists; repeat split; auto; cbn; congruence.
Qed.

Lemma cors_policy_allows_all_witness :
  config both_settings "DB_URL" = inr "mongodb://localhost:27017"
  /\ config both_settings "DB_NAME" = inr "carsdb"
  /\ exists g g',
    exec (module both_settings [] "__main__") empty_globals = (None, g)
    /\ exec (module_without_reassignment both_settings [] "__main__") empty_globals
       = (None, g')
    /\ build_middleware_stack g = Some [Some allow_all]
    /\ build_middleware_stack g' = build_middleware_stack g
    /\ app g' = app g
    /\ origins g' <> origins g
    /\ (forall origin, is_allowed_origin allow_all origin = true).
Proof.
  split; [reflexivity|]. split; [reflexivity|].
  apply (cors_policy_allows_all both_settings [] "__main__"
           "mongodb://localhost:27017" "carsdb"); reflexivity.
Defined.

(** The heap matters: had line 36 written into the list that [origins]
    names, instead of binding the name to a new list, the policy built
    afterwards would no longer allow every origin. *)
Remark overwriting_in_place_would_restrict :
  exists g c,
    exec (head_of_module both_settings [] ++ [overwrite_origins_in_place])
         empty_globals = (None, g)
    /\ build_middleware_stack g = Some [Some c]
    /\ is_allowed_origin c "http://example.org" = false.
Proof.
  rewrite (exec_configured both_settings [] "mongodb://localhost:27017" "carsdb")
    by reflexivity.
  do 2 eexists. split; [reflexivity|]. split; reflexivity.
Qed.

End Bootstrap.

(** ** Validation of fields *)

Section PydanticFacts.
Context `{PyBuiltins}.

Lemma stateless_str_validator v : stateless (str_validator v).
Proof.
  destruct v; cbn; auto with py.
  - destruct (int_str_ok z); auto with py.
  - destruct (bytes_decode b); auto with py.
Qed.

Lemma stateless_int_validator v : stateless (int_validator v).
Proof.
  destruct v; cbn; auto with py.
  - destruct (int_of_str s); auto with py.
  - destruct (int_of_bytes b); auto with py.
Qed.

Lemma stateless_constr_length n v : stateless (constr_length_validator n v).
Proof.
  unfold constr_length_validator. destruct (py_len v) as [k|]; auto with py.
  destruct (k <? n)%nat; auto with py.
Qed.

Lemma tame_str_validator : tame str_validator.
Proof.
  intros v. split; [apply stateless_str_validator|].
  destruct v; cbn; auto.
  - destruct (int_str_ok z); cbn; auto.
  - destruct (bytes_decode b); cbn; auto.
Qed.

Lemma tame_int_validator : tame int_validator.
Proof.
  intros v. split; [apply stateless_int_validator|].
  destruct v; cbn; auto.
  - destruct (int_of_str s); cbn; auto.
  - destruct (int_of_bytes b); cbn; auto.
Qed.

Lemma tame_constr_length n : tame (constr_length_validator n).
Proof.
  intros v. split; [apply stateless_constr_length|].
  unfold constr_length_validator, eval.
  destruct (py_len v) as [k|]; [|cbn; auto].
  destruct (k <? n)%nat; cbn; auto.
Qed.

Lemma tame_validate : tame PyObjectId.validate.
Proof.
  intros v. split; [apply stateless_validate|]. unfold eval.
  destruct (validate_cases v st0) as [(_ & o & _ & ->) | (_ & ->)]; cbn; auto.
Qed.

Lemma tame_validators a info : Forall tame (validators_of a info).
Proof.
  induction a; cbn; auto.
  - constructor; [apply tame_validate | constructor].
  - destruct (min_length info).
    + constructor; [apply tame_str_validator|].
      constructor; [apply tame_constr_length | constructor].
    + constructor; [apply tame_str_validator | constructor].
  - constructor; [apply tame_int_validator | constructor].
Qed.

Lemma apply_validators_total vs :
  Forall tame vs ->
  forall v, exists x, forall st, _apply_validators vs v st = (Ok x, st).
Proof.
  induction 1 as [|validator vs Hv _ IH]; intros v.
  - exists (inl v). reflexivity.
  - destruct (Hv v) as [Hs Hr]. cbn.
    destruct (eval (validator v)) as [v'|[e|errs]] eqn:E.
    + destruct (IH v') as [x Hx]. exists x. intros st. rewrite (Hs st), E. apply Hx.
    + exists (inr e). intros st. rewrite (Hs st), E, Hr. reflexivity.
    + contradiction.
Qed.

Lemma ModelField_validate_total f v :
  exists x, forall st, ModelField_validate f v st = (Ok x, st).
Proof.
  destruct (apply_validators_total _ (tame_validators (type_ f) (field_info f)) v)
    as [x Hx].
  destruct v; try (exists x; exact Hx).
  cbn. destruct (allow_none f); eexists; reflexivity.
Qed.

Lemma ModelField_validate_outcome f v st :
  ModelField_validate f v st = (Ok (outcome f v), st).
Proof.
  destruct (ModelField_validate_total f v) as [x Hx].
  unfold outcome, eval. rewrite (Hx st0), (Hx st). reflexivity.
Qed.

Lemma validate_field_eq data vs fset es f st :
  total_default f ->
  validate_field data (vs, fset, es) f st =
  (Ok (vs ++ fst (field_entry data f st), fset ++ field_set data f,
       es ++ field_error data f),
   snd (field_entry data f st)).
Proof.
  intros Hd. unfold validate_field, field_entry, field_set, field_error, bind.
  destruct (data !! field_alias f) as [v|].
  - rewrite ModelField_validate_outcome.
    destruct (outcome f v); cbn; rewrite ?app_nil_r; reflexivity.
  - destruct (required f); cbn; rewrite ?app_nil_r; [reflexivity|].
    destruct (Hd st) as (d & st' & ->). cbn. rewrite ?app_nil_r. reflexivity.
Qed.

Lemma validate_fields_eq data fs :
  Forall total_default fs ->
  forall vs fset es st,
    validate_fields data fs (vs, fset, es) st =
    (Ok (vs ++ fst (entries data fs st), fset ++ flat_map (field_set data) fs,
         es ++ flat_map (field_error data) fs),
     snd (entries data fs st)).
Proof.
  induction 1 as [|f fs Hf _ IH]; intros vs fset es st;
    cbn [validate_fields entries flat_map].
  - cbn. rewrite !app_nil_r. reflexivity.
  - unfold bind. rewrite (validate_field_eq _ _ _ _ _ _ Hf). rewrite IH.
    destruct (field_entry data f st) as [a st1]. cbn.
    destruct (entries data fs st1) as [b st2]. cbn.
    rewrite <- !app_assoc. reflexivity.
Qed.

(** Construction, in closed form: the instance when no field contributes an
    error, the [ValidationError] of all the errors otherwise. *)
Lemma __init___eq cls data st :
  Forall total_default (__fields__ cls) ->
  __init__ cls data st =
  match errors_of cls data with
  | [] => (Ok (instance cls (fst (entries data (__fields__ cls) st))
                         (flat_map (field_set data) (__fields__ cls))),
           snd (entries data (__fields__ cls) st))
  | errs => (Raise (ValidationError errs), snd (entries data (__fields__ cls) st))
  end.
Proof.
  intros Hd. unfold __init__, validate_model.
  rewrite (validate_fields_eq _ _ Hd). cbn. unfold errors_of.
  destruct (flat_map _ _); reflexivity.
Qed.

End PydanticFacts.

(** ** The four models *)

Section ModelFacts.
Context `{PyBuiltins}.

Lemma fields_MongoBaseModel : __fields__ MongoBaseModel = [id_field].
Proof. reflexivity. Qed.

Lemma fields_CarBase :
  __fields__ CarBase =
  [id_field; str_field "brand"; str_field "make"; int_field "year";
   int_field "price"; int_field "km"; int_field "cm3"].
Proof. reflexivity. Qed.

Lemma fields_CarUpdate : __fields__ CarUpdate = [id_field; optional_int_field "price"].
Proof. reflexivity. Qed.

Lemma fields_CarDB : __fields__ CarDB = __fields__ CarBase.
Proof. reflexivity. Qed.

Lemma total_default_id : total_default id_field.
Proof. intros st. cbn. eauto. Qed.

Lemma total_default_no_factory f :
  default_factory (field_info f) = None -> total_default f.
Proof.
  intros Hf st. unfold get_default. rewrite Hf.
  destruct (default (field_info f)); cbn; eauto.
Qed.

Lemma total_CarBase : Forall total_default (__fields__ CarBase).
Proof.
  rewrite fields_CarBase.
  repeat (constructor; [first [apply total_default_id
                              | apply total_default_no_factory; reflexivity]|]).
  constructor.
Qed.

Lemma total_CarUpdate : Forall total_default (__fields__ CarUpdate).
Proof.
  rewrite fields_CarUpdate.
  repeat (constructor; [first [apply total_default_id
                              | apply total_default_no_factory; reflexivity]|]).
  constructor.
Qed.

Lemma total_MongoBaseModel : Forall total_default (__fields__ MongoBaseModel).
Proof. rewrite fields_MongoBaseModel. constructor; [apply total_default_id | constructor]. Qed.

(** *** What each kind of field makes of a value *)


Lemma outcome_str_inv k v x :
  outcome (str_field k) v = inl x ->
  exists s, x = VStr s /\ (3 <= String.length s)%nat.
Proof.
  unfold outcome, eval.
  assert (Hlen : forall s,
    match fst (_apply_validators [str_validator; constr_length_validator 3] (VStr s) st0) with
    | Ok y => y | Raise _ => inr InvalidId end = inl x ->
    exists s', x = VStr s' /\ (3 <= String.length s')%nat).
  { intros s. cbn -[Nat.ltb].
    destruct (String.length s <? 3)%nat eqn:E; cbn; [discriminate|].
    intros [= <-]. exists s. split; [reflexivity|]. apply Nat.ltb_ge in E. exact E. }
  destruct v; cbn; try discriminate.
  - apply (Hlen (if b then "True" else "False")).
  - destruct (int_str_ok z); cbn; [apply (Hlen (str_of_int z)) | discriminate].
  - apply (Hlen s).
  - destruct (bytes_decode b) as [s|]; cbn; [apply (Hlen s) | discriminate].
Qed.


Lemma outcome_int_inv k v x :
  outcome (int_field k) v = inl x -> exists z, x = VInt z.
Proof.
  unfold outcome, eval. destruct v; cbn; try discriminate.
  - intros [= <-]; eauto.
  - intros [= <-]; eauto.
  - destruct (int_of_str s); cbn; [intros [= <-]; eauto | discriminate].
  - destruct (int_of_bytes b); cbn; [intros [= <-]; eauto | discriminate].
Qed.

Lemma outcome_optional_int_inv k v x :
  outcome (optional_int_field k) v = inl x -> x = VNone \/ exists z, x = VInt z.
Proof.
  unfold outcome, eval. destruct v; cbn; try discriminate.
  - intros [= <-]; eauto.
  - intros [= <-]; eauto.
  - intros [= <-]; eauto.
  - destruct (int_of_str s); cbn; [intros [= <-]; eauto | discriminate].
  - destruct (int_of_bytes b); cbn; [intros [= <-]; eauto | discriminate].
Qed.

(** The [id] field: [None] is refused, anything else goes through
    [PyObjectId.validate]. *)
Lemma outcome_id v :
  outcome id_field v =
  if pyval_is_None v then inr NoneIsNotAllowedError
  else match eval (PyObjectId.validate v) with
       | Ok x => inl x
       | Raise _ => inr (ValueError "Invalid objectid")
       end.
Proof.
  unfold outcome, eval. destruct v; try reflexivity;
    match goal with
    | |- context [PyObjectId.validate ?w] =>
        cbn; destruct (validate_cases w st0) as [(_ & o & _ & ->) | (_ & ->)]; reflexivity
    end.
Qed.

Lemma outcome_id_inv v x :
  outcome id_field v = inl x ->
  exists o, x = VObjectId o
            /\ forall st, ObjectId.is_valid v st = (Ok true, st)
                          /\ ObjectId.__init__ v st = (Ok o, st)
                          /\ PyObjectId.validate v st = (Ok (VObjectId o), st).
Proof.
  rewrite outcome_id. destruct (pyval_is_None v) eqn:En; [discriminate|].
  unfold eval.
  destruct (validate_cases v st0) as [(Hv & o & Hi & Ho) | (_ & Hr)].
  - rewrite Ho. cbn. intros [= <-]. exists o. split; [reflexivity|]. intros st.
    assert (Hnn : v <> VNone) by (intros ->; discriminate).
    rewrite (stateless_is_valid v st), (stateless__init__ v Hnn st),
      (stateless_validate v st).
    unfold eval. rewrite Hv, Hi, Ho. auto.
  - rewrite Hr. discriminate.
Qed.

(** *** Fields that contribute no error *)

Lemma required_ok data f st :
  required f = true ->
  field_error data f = [] ->
  exists v x, data !! field_alias f = Some v /\ outcome f v = inl x
              /\ field_entry data f st = ([(name f, x)], st)
              /\ field_set data f = [name f].
Proof.
  unfold field_error, field_entry, field_set. intros Hr.
  destruct (data !! field_alias f) as [v|]; [|rewrite Hr; discriminate].
  destruct (outcome f v) as [x|e] eqn:E; [|discriminate].
  intros _. exists v, x. auto.
Qed.

Lemma id_ok data st :
  field_error data id_field = [] ->
  exists o st', field_entry data id_field st = ([("id", VObjectId o)], st')
                /\ id_source data st o st'.
Proof.
  unfold field_error, field_entry, id_source. cbn [field_alias id_field alias field_info name].
  destruct (data !! "_id") as [v|].
  - destruct (outcome id_field v) as [x|e] eqn:E; [|discriminate].
    intros _. apply outcome_id_inv in E as (o & -> & Ho).
    exists o, st. split; [reflexivity|]. split; [reflexivity | apply Ho].
  - intros _. cbn. eexists _, _. split; reflexivity.
Qed.

Lemma optional_ok data k st :
  field_error data (optional_int_field k) = [] ->
  exists x, field_entry data (optional_int_field k) st = ([(k, x)], st)
            /\ (x = VNone \/ exists z, x = VInt z)
            /\ (data !! k = None -> x = VNone /\ field_set data (optional_int_field k) = []).
Proof.
  unfold field_error, field_entry, field_set.
  cbn [field_alias optional_int_field alias field_info name].
  destruct (data !! k) as [v|].
  - destruct (outcome (optional_int_field k) v) as [x|e] eqn:E; [|discriminate].
    intros _. exists x. split; [reflexivity|].
    split; [eapply outcome_optional_int_inv; exact E | discriminate].
  - intros _. cbn. exists VNone. auto.
Qed.

(** A successfully built instance of a class with the fields of [CarBase]. *)
Lemma CarBase_shape cls data st m st' :
  __fields__ cls = __fields__ CarBase ->
  __init__ cls data st = (Ok m, st') ->
  exists o brand make year price km cm3,
    m = instance cls
          [("id", VObjectId o); ("brand", VStr brand); ("make", VStr make);
           ("year", VInt year); ("price", VInt price); ("km", VInt km);
           ("cm3", VInt cm3)]
          (flat_map (field_set data) (__fields__ CarBase))
    /\ (3 <= String.length brand)%nat /\ (3 <= String.length make)%nat
    /\ id_source data st o st'.
Proof.
  intros Hf. rewrite __init___eq by (rewrite Hf; apply total_CarBase).
  unfold errors_of. rewrite Hf, fields_CarBase. cbn [flat_map entries].
  destruct (field_error data id_field ++ _) eqn:E; [|discriminate].
  repeat (apply app_eq_nil in E; destruct E as [?E E]).
  destruct (id_ok data st E0) as (o & st1 & -> & Hsrc).
  destruct (required_ok data (str_field "brand") st1 eq_refl E1) as (w1 & x1 & _ & O1 & -> & _).
  destruct (required_ok data (str_field "make") st1 eq_refl E2) as (w2 & x2 & _ & O2 & -> & _).
  destruct (required_ok data (int_field "year") st1 eq_refl E3) as (w3 & x3 & _ & O3 & -> & _).
  destruct (required_ok data (int_field "price") st1 eq_refl E4) as (w4 & x4 & _ & O4 & -> & _).
  destruct (required_ok data (int_field "km") st1 eq_refl E5) as (w5 & x5 & _ & O5 & -> & _).
  destruct (required_ok data (int_field "cm3") st1 eq_refl E6) as (w6 & x6 & _ & O6 & -> & _).
  apply outcome_str_inv in O1 as (brand & -> & Hb).
  apply outcome_str_inv in O2 as (make & -> & Hm).
  apply outcome_int_inv in O3 as (year & ->).
  apply outcome_int_inv in O4 as (price & ->).
  apply outcome_int_inv in O5 as (km & ->).
  apply outcome_int_inv in O6 as (cm3 & ->).
  cbn. intros [= <- <-].
  exists o, brand, make, year, price, km, cm3. auto.
Qed.

Lemma lookup_dict_set d n value : lookup_attr (dict_set d n value) n = Some value.
Proof.
  induction d as [|[k v] d IH]; cbn.
  - rewrite String.eqb_refl. reflexivity.
  - destruct (String.eqb k n) eqn:E; cbn; rewrite E; [reflexivity | exact IH].
Qed.

(** C8, as the code has it.  Every instance that the construction of [CarDB]
    returns has a [brand] and a [make] that are texts of at least 3
    characters, and a [year], [price], [km] and [cm3] that are integers (and
    an identifier).  The layer does not keep this afterwards: assigning to
    any of the seven attributes stores the value as it is, whatever it is. *)
Theorem CarDB_invariant data st m st' :
  __init__ CarDB data st = (Ok m, st') ->
  (exists o brand make year price km cm3,
     __dict__ m =
       [("id", VObjectId o); ("brand", VStr brand); ("make", VStr make);
        ("year", VInt year); ("price", VInt price); ("km", VInt km);
        ("cm3", VInt cm3)]
     /\ (3 <= String.length brand)%nat /\ (3 <= String.length make)%nat)
  /\ (forall n value,
        In n (map name (__fields__ CarDB)) ->
        exists m', __setattr__ m n value = Ok m'
                   /\ __class__ m' = CarDB
                   /\ getattr m' n = Some value).
Proof.
  intros Hm.
  destruct (CarBase_shape CarDB data st m st' fields_CarDB Hm)
    as (o & brand & make & year & price & km & cm3 & -> & Hb & Hk & _).
  split; [exists o, brand, make, year, price, km, cm3; auto|].
  intros n value Hn. unfold __setattr__. cbn [__class__ __dict__ __fields_set__].
  assert (E : existsb (fun f => String.eqb (name f) n) (__fields__ CarDB) = true).
  { cbn in Hn. destruct Hn as [<- | [<- | [<- | [<- | [<- | [<- | [<- | []]]]]]]];
      reflexivity. }
  rewrite E. eexists. split; [reflexivity|]. split; [reflexivity|].
  unfold getattr. cbn [__dict__]. apply lookup_dict_set.
Qed.

(** The rendering reads the class of an instance through its fields and its
    encoders only. *)
Lemma json_ext by_alias m m' :
  __dict__ m = __dict__ m' ->
  __fields__ (__class__ m) = __fields__ (__class__ m') ->
  __json_encoders__ (__class__ m) = __json_encoders__ (__class__ m') ->
  json_ by_alias m = json_ by_alias m'.
Proof.
  intros Hd Hf He. unfold json_, dict_key. rewrite Hd, Hf, He. reflexivity.
Qed.

(** C9. [CarDB] has the fields and the encoders of [CarBase] and no other;
    on every input the two constructions end alike: both raise the same
    error, or both return instances with the same attributes, the same set
    of supplied fields and the same JSON rendering. *)
Theorem CarDB_same_as_CarBase data st :
  __fields__ CarDB = __fields__ CarBase
  /\ __json_encoders__ CarDB = __json_encoders__ CarBase
  /\ match __init__ CarBase data st, __init__ CarDB data st with
     | (Ok m, s), (Ok m', s') =>
         s = s' /\ __dict__ m = __dict__ m'
         /\ __fields_set__ m = __fields_set__ m'
         /\ forall by_alias, json_ by_alias m = json_ by_alias m'
     | (Raise r, s), (Raise r', s') => r = r' /\ s = s'
     | _, _ => False
     end.
Proof.
  split; [reflexivity|]. split; [reflexivity|].
  unfold __init__.
  change (validate_model CarDB data st) with (validate_model CarBase data st).
  destruct (validate_model CarBase data st) as [[[[vs fs] es]|r] s].
  - destruct es; [|split; reflexivity].
    split; [reflexivity|]. split; [reflexivity|]. split; [reflexivity|].
    intros by_alias. apply json_ext; reflexivity.
  - split; reflexivity.
Qed.

(** *** Errors *)









(** *** Construction reads the data at the aliases of the fields only *)




(** A successfully built instance of [MongoBaseModel] and of [CarUpdate]. *)
Lemma MongoBaseModel_shape data st m st' :
  __init__ MongoBaseModel data st = (Ok m, st') ->
  exists o,
    m = instance MongoBaseModel [("id", VObjectId o)]
          (flat_map (field_set data) (__fields__ MongoBaseModel))
    /\ id_source data st o st'.
Proof.
  rewrite __init___eq by apply total_MongoBaseModel.
  unfold errors_of. rewrite fields_MongoBaseModel. cbn [flat_map entries].
  destruct (field_error data id_field ++ _) eqn:E; [|discriminate].
  apply app_eq_nil in E as [E0 _].
  destruct (id_ok data st E0) as (o & st1 & -> & Hsrc).
  cbn. intros [= <- <-]. exists o. auto.
Qed.

Lemma CarUpdate_shape data st m st' :
  __init__ CarUpdate data st = (Ok m, st') ->
  exists o x,
    m = instance CarUpdate [("id", VObjectId o); ("price", x)]
          (field_set data id_field ++ field_set data (optional_int_field "price"))
    /\ (x = VNone \/ exists z, x = VInt z)
    /\ id_source data st o st'
    /\ (data !! "price" = None ->
        x = VNone /\ field_set data (optional_int_field "price") = []).
Proof.
  rewrite __init___eq by apply total_CarUpdate.
  unfold errors_of. rewrite fields_CarUpdate. cbn [flat_map entries].
  destruct (field_error data id_field ++ _) eqn:E; [|discriminate].
  apply app_eq_nil in E as [E0 E]. apply app_eq_nil in E as [E1 _].
  destruct (id_ok data st E0) as (o & st1 & -> & Hsrc).
  destruct (optional_ok data "price" st1 E1) as (x & -> & Hx & Hnone).
  cbn. rewrite app_nil_r. intros [= <- <-]. exists o, x. auto.
Qed.


(** *** Identifiers, their text and their rendering *)

Lemma hexlify_length b : String.length (hexlify b) = (2 * length b)%nat.
Proof. induction b as [|x b IH]; cbn; [reflexivity | rewrite IH; lia]. Qed.

Lemma fromhex_byte x rest :
  bytes_fromhex (String (hex_digit (Byte.to_N x / 16))
                   (String (hex_digit (Byte.to_N x mod 16)) rest))
  = match bytes_fromhex rest with Some r => Some (x :: r) | None => None end.
Proof. destruct x; reflexivity. Qed.

Lemma fromhex_hexlify b : bytes_fromhex (hexlify b) = Some b.
Proof.
  induction b as [|x b IH]; [reflexivity|].
  cbn [hexlify]. rewrite fromhex_byte, IH. reflexivity.
Qed.

(** The text of an identifier of 12 bytes is read back as that identifier. *)
Lemma validate_hexlify o st :
  length (binary o) = 12%nat ->
  PyObjectId.validate (VStr (ObjectId.__str__ o)) st = (Ok (VObjectId o), st).
Proof.
  destruct o as [b]. cbn [binary]. intros Hlen.
  unfold PyObjectId.validate, ObjectId.is_valid, ObjectId.__str__, bind.
  cbn [py_bool ObjectId.__init__ ObjectId.__validate binary].
  rewrite hexlify_length, Hlen, fromhex_hexlify. reflexivity.
Qed.


(** *** Rendering *)











End ModelFacts.

(** ** The claims at concrete inputs *)

#[local] Existing Instance ascii_builtins.







(** A number given as text is converted, not refused. *)
Example CarBase_converts_text_year :
  fiat_text_year !! "year" = Some (VStr "2011")
  /\ (attrs (__init__ CarBase fiat_text_year st0)) ≫= (fun d => lookup_attr d "year")
     = Some (VInt 2011).
Proof. split; [reflexivity | vm_compute; reflexivity]. Qed.


(** C8 fails as stated: the first instance below is the [CarDB] built from
    [fiat]; after [m.brand = "x"], which raises nothing, it is a [CarDB]
    whose [brand] has one character. *)
Lemma CarDB_assignment_breaks_invariant :
  __init__ CarDB fiat st0 = (Ok (instance CarDB fiat_attrs fiat_set), mkState 0 0 1)
  /\ __setattr__ (instance CarDB fiat_attrs fiat_set) "brand" (VStr "x")
     = Ok (instance CarDB (dict_set fiat_attrs "brand" (VStr "x")) fiat_set)
  /\ getattr (instance CarDB (dict_set fiat_attrs "brand" (VStr "x")) fiat_set) "brand"
     = Some (VStr "x")
  /\ (String.length "x" < 3)%nat.
Proof.
  split; [vm_compute; reflexivity|]. split; [vm_compute; reflexivity|].
  split; [vm_compute; reflexivity | cbn; lia].
Qed.

Lemma CarDB_invariant_witness :
  exists m st',
    __init__ CarDB fiat st0 = (Ok m, st')
    /\ (exists o brand make year price km cm3,
          __dict__ m =
            [("id", VObjectId o); ("brand", VStr brand); ("make", VStr make);
             ("year", VInt year); ("price", VInt price); ("km", VInt km);
             ("cm3", VInt cm3)]
          /\ (3 <= String.length brand)%nat /\ (3 <= String.length make)%nat)
    /\ exists m', __setattr__ m "km" VNone = Ok m'
                  /\ __class__ m' = CarDB
                  /\ getattr m' "km" = Some VNone.
Proof.
  destruct (__init__ CarDB fiat st0) as [[m|r] st'] eqn:E.
  - exists m, st'. split; [reflexivity|].
    destruct (CarDB_invariant fiat st0 m st' E) as [Hinv Hset].
    split; [exact Hinv|]. apply Hset. cbn. auto 10.
  - exfalso. vm_compute in E. discriminate.
Defined.




(** ** Generated identifiers are fresh *)

Lemma to_N_byte_of_N n : (n < 256)%N -> Byte.to_N (byte_of_N n) = n.
Proof.
  intros Hn. unfold byte_of_N.
  destruct (Byte.of_N n) as [b|] eqn:E.
  - apply Byte.to_of_N. exact E.
  - apply Byte.of_N_None_iff in E. lia.
Qed.

(** Two identifiers generated one after the other differ, whatever the
    clock did in between: their counters differ. *)
Lemma consecutive_ids_differ st now o1 st1 o2 st2 :
  (_inc st < _MAX_COUNTER_VALUE + 1)%N ->
  ObjectId.__generate st = (Ok o1, st1) ->
  ObjectId.__generate (mkState now (process_random st1) (_inc st1)) = (Ok o2, st2) ->
  o1 <> o2.
Proof.
  unfold ObjectId.__generate, _MAX_COUNTER_VALUE. cbn.
  intros Hinc [= <- <-] [= <- _] Heq. cbn in Heq.
  injection Heq as _ _ _ _ E2 E1 E0.
  apply (f_equal Byte.to_N) in E2, E1, E0.
  rewrite !to_N_byte_of_N in E2, E1, E0 by (apply N.mod_lt; discriminate).
  change (16777215 + 1)%N with 16777216%N in *.
  set (i := _inc st) in *.
  set (j := ((i + 1) mod 16777216)%N) in *.
  assert (Hj : (j < 16777216)%N) by (apply N.mod_lt; discriminate).
  assert (Hij : i = j).
  { rewrite (N.div_mod i 256), (N.div_mod j 256) by discriminate.
    rewrite (N.div_mod (i / 256) 256), (N.div_mod (j / 256) 256) by discriminate.
    assert (Hi3 : ((i / 256) / 256 < 256)%N)
      by (apply N.Div0.div_lt_upper_bound, N.Div0.div_lt_upper_bound; lia).
    assert (Hj3 : ((j / 256) / 256 < 256)%N)
      by (apply N.Div0.div_lt_upper_bound, N.Div0.div_lt_upper_bound; lia).
    rewrite (N.mod_small _ _ Hi3), (N.mod_small _ _ Hj3) in E2.
    rewrite E2, E1, E0. reflexivity. }
  subst j.
  destruct (N.eq_dec i 16777215%N) as [-> | Hne]; [vm_compute in Hij; discriminate|].
  rewrite N.mod_small in Hij by lia. lia.
Qed.

(** * Further properties of the code *)

(** ** Construction of the models *)

Section ConstructionFacts.
Context `{PyBuiltins}.










End ConstructionFacts.

(** ** None, and what a partial update carries *)

Section NoneAndUpdates.
Context `{PyBuiltins}.



(** X5. What a partial update carries.  For an instance of [CarUpdate],
    [dict(exclude_unset=True)] has an entry for [id] exactly when the data
    had an [_id] and an entry for [price] exactly when the data had a
    [price]: nothing for empty data, and a [price] given as [None] is kept as
    an entry whose value is [None]. *)
Theorem update_carries_what_was_supplied data st m st' :
  __init__ CarUpdate data st = (Ok m, st') ->
  exists o x,
    __dict__ m = [("id", VObjectId o); ("price", x)]
    /\ dict_ false true m
       = (if has_key data "_id" then [("id", VObjectId o)] else [])
         ++ (if has_key data "price" then [("price", x)] else [])
    /\ dict_ true true m
       = (if has_key data "_id" then [("_id", VObjectId o)] else [])
         ++ (if has_key data "price" then [("price", x)] else [])
    /\ (data !! "price" = Some VNone -> x = VNone).
Proof.
  intros Hm.
  assert (Hnone : data !! "price" = Some VNone ->
                  field_error data (optional_int_field "price") = [] ->
                  fst (field_entry data (optional_int_field "price") st')
                  = [("price", VNone)]).
  { intros Hp _. unfold field_entry.
    cbn [field_alias optional_int_field alias field_info name]. rewrite Hp.
    reflexivity. }
  pose proof Hm as Hm'.
  rewrite __init___eq in Hm' by apply total_CarUpdate.
  unfold errors_of in Hm'. rewrite fields_CarUpdate in Hm'. cbn [flat_map entries] in Hm'.
  destruct (field_error data id_field ++ _) eqn:E; [|discriminate].
  apply app_eq_nil in E as [E0 E]. apply app_eq_nil in E as [E1 _].
  destruct (id_ok data st E0) as (o & st1 & Hid & _).
  destruct (optional_ok data "price" st1 E1) as (x & Hp & _ & _).
  rewrite Hid, Hp in Hm'. cbn in Hm'. injection Hm' as <- <-.
  exists o, x. split; [reflexivity|].
  assert (Hx : data !! "price" = Some VNone -> x = VNone).
  { intros Hpn. specialize (Hnone Hpn E1). rewrite Hp in Hnone. cbn in Hnone.
    congruence. }
  unfold dict_, field_set, has_key.
  cbn [__dict__ __fields_set__ __class__ field_alias id_field optional_int_field
       alias field_info name].
  destruct (data !! "_id"), (data !! "price"); repeat split; auto; reflexivity.
Qed.

End NoneAndUpdates.

(** ** Round trips and fresh identifiers *)

Section RoundTrips.
Context `{PyBuiltins}.



Lemma model_id cls data st m st' :
  In cls models ->
  __init__ cls data st = (Ok m, st') ->
  exists o, getattr m "id" = Some (VObjectId o) /\ id_source data st o st'.
Proof.
  intros Hcls Hm. cbn in Hcls. destruct Hcls as [<- | [<- | [<- | [<- | []]]]].
  - destruct (MongoBaseModel_shape data st m st' Hm) as (o & -> & Hsrc). eauto.
  - destruct (CarBase_shape CarBase data st m st' eq_refl Hm)
      as (o & ? & ? & ? & ? & ? & ? & -> & _ & _ & Hsrc). eauto.
  - destruct (CarUpdate_shape data st m st' Hm) as (o & x & -> & _ & Hsrc & _). eauto.
  - destruct (CarBase_shape CarDB data st m st' fields_CarDB Hm)
      as (o & ? & ? & ? & ? & ? & ? & -> & _ & _ & Hsrc). eauto.
Qed.

(** X7. Two instances built one after the other from data without [_id] have
    different identifiers, whichever of the four models each is and whatever
    the clock did in between, provided the counter started in its range. *)
Theorem successive_instances_have_distinct_ids cls1 cls2 data1 data2 st now m1 st1 m2 st2 :
  In cls1 models -> In cls2 models ->
  data1 !! "_id" = None -> data2 !! "_id" = None ->
  (_inc st < _MAX_COUNTER_VALUE + 1)%N ->
  __init__ cls1 data1 st = (Ok m1, st1) ->
  __init__ cls2 data2 (mkState now (process_random st1) (_inc st1)) = (Ok m2, st2) ->
  getattr m1 "id" <> getattr m2 "id".
Proof.
  intros Hc1 Hc2 Hd1 Hd2 Hinc Hm1 Hm2.
  destruct (model_id cls1 data1 st m1 st1 Hc1 Hm1) as (o1 & -> & Hs1).
  destruct (model_id cls2 data2 _ m2 st2 Hc2 Hm2) as (o2 & -> & Hs2).
  unfold id_source in Hs1, Hs2. rewrite Hd1 in Hs1. rewrite Hd2 in Hs2.
  intros [= E]. exact (consecutive_ids_differ st now o1 st1 o2 st2 Hinc Hs1 Hs2 E).
Qed.

End RoundTrips.

(** ** The text of identifiers *)

Lemma hexval_digit c h :
  hexval c = Some h -> (h < 16)%N /\ hex_digit h = to_lower c.
Proof.
  destruct c as [[] [] [] [] [] [] [] []]; vm_compute; intros E;
    first [discriminate E | injection E as <-; split; reflexivity].
Qed.

Lemma byte_of_digits hi lo :
  (hi < 16)%N -> (lo < 16)%N ->
  (Byte.to_N (byte_of_N (16 * hi + lo)) / 16 = hi
   /\ Byte.to_N (byte_of_N (16 * hi + lo)) mod 16 = lo)%N.
Proof.
  intros Hhi Hlo. rewrite to_N_byte_of_N by lia. split; symmetry.
  - apply (N.div_unique _ _ _ lo); [exact Hlo | reflexivity].
  - apply (N.mod_unique _ _ hi); [exact Hlo | reflexivity].
Qed.

Lemma fromhex_lower (n : nat) : forall s : string,
  String.length s = (2 * n)%nat ->
  forallb is_hexdigit (list_ascii_of_string s) = true ->
  exists b, bytes_fromhex s = Some b /\ length b = n /\ hexlify b = lower s.
Proof.
  induction n as [|n IH]; intros s Hlen Hhex.
  - destruct s; [|discriminate]. exists []. repeat split.
  - destruct s as [|c [|d rest]]; try (cbn in Hlen; lia).
    cbn in Hhex. apply andb_prop in Hhex as [Hc Hrest].
    apply andb_prop in Hrest as [Hd Hrest].
    destruct (IH rest) as (b & Hb & Hl & Hlow); [cbn in Hlen; lia | assumption |].
    cbn [bytes_fromhex]. rewrite (hexdigit_not_space c Hc).
    unfold is_hexdigit in Hc, Hd.
    destruct (hexval c) as [hi|] eqn:Ec; [|discriminate].
    destruct (hexval d) as [lo|] eqn:Ed; [|discriminate].
    rewrite Hb. eexists. split; [reflexivity|]. split; [cbn; lia|].
    destruct (hexval_digit c hi Ec) as [Hhi Lc].
    destruct (hexval_digit d lo Ed) as [Hlo Ld].
    destruct (byte_of_digits hi lo Hhi Hlo) as [Dq Dr].
    cbn [hexlify lower]. rewrite Dq, Dr, Lc, Ld, Hlow. reflexivity.
Qed.

(** X8. Text and identifier, both ways.  A text of 24 hexadecimal digits is
    validated to an identifier of 12 bytes whose text is the same digits in
    lower case; and the text of an identifier of 12 bytes is validated back
    to that identifier. *)
Theorem identifier_text_round_trip st :
  (forall s, is_hex24 (VStr s) = true ->
     exists o, PyObjectId.validate (VStr s) st = (Ok (VObjectId o), st)
               /\ length (binary o) = 12%nat
               /\ ObjectId.__str__ o = lower s)
  /\ (forall o, length (binary o) = 12%nat ->
        PyObjectId.validate (VStr (ObjectId.__str__ o)) st = (Ok (VObjectId o), st)).
Proof.
  split.
  - intros s Hs. cbn [is_hex24] in Hs. apply andb_prop in Hs as [Hlen Hhex].
    apply Nat.eqb_eq in Hlen.
    destruct (fromhex_lower 12 s Hlen Hhex) as (b & Hb & Hl & Hlow).
    exists (mkObjectId b). split; [|split; [exact Hl | exact Hlow]].
    unfold PyObjectId.validate, ObjectId.is_valid, bind.
    cbn [py_bool ObjectId.__init__ ObjectId.__validate].
    rewrite Hlen, Hb. reflexivity.
  - intros o Ho. apply validate_hexlify. exact Ho.
Qed.

Lemma validate_str_inv s st o st' :
  PyObjectId.validate (VStr s) st = (Ok (VObjectId o), st') ->
  String.length s = 24%nat /\ bytes_fromhex s = Some (binary o).
Proof.
  unfold PyObjectId.validate, ObjectId.is_valid, bind.
  cbn [py_bool ObjectId.__init__ ObjectId.__validate].
  destruct (negb (String.length s =? 0)%nat); cbn; [|discriminate].
  destruct (String.length s =? 24)%nat eqn:E; cbn; [|discriminate].
  destruct (bytes_fromhex s) as [b|]; cbn; [|discriminate].
  intros [= <- _]. apply Nat.eqb_eq in E. auto.
Qed.

Lemma fromhex_bound (n : nat) : forall (s : string) (b : list byte),
  (String.length s <= n)%nat ->
  bytes_fromhex s = Some b ->
  (2 * length b <= String.length s)%nat
  /\ ((2 * length b)%nat = String.length s ->
      forallb is_hexdigit (list_ascii_of_string s) = true).
Proof.
  induction n as [|n IH]; intros s b Hn Hb.
  - destruct s; [|cbn in Hn; lia]. injection Hb as <-. split; [cbn; lia | reflexivity].
  - destruct s as [|c rest]; [injection Hb as <-; split; [cbn; lia | reflexivity]|].
    cbn [bytes_fromhex] in Hb. destruct (is_space c).
    + destruct (IH rest b) as [Hle _]; [cbn in Hn; lia | exact Hb |].
      split; [cbn; lia | cbn; lia].
    + destruct (hexval c) as [hi|] eqn:Ec; [|discriminate].
      destruct rest as [|d rest']; [discriminate|].
      destruct (hexval d) as [lo|] eqn:Ed; [|discriminate].
      destruct (bytes_fromhex rest') as [r|] eqn:Er; [|discriminate].
      injection Hb as <-.
      destruct (IH rest' r) as [Hle Heq]; [cbn in Hn; lia | exact Er |].
      split; [cbn; lia|]. intros Hlen. cbn in Hlen. cbn.
      unfold is_hexdigit at 1 2. rewrite Ec, Ed. cbn. apply Heq. lia.
Qed.

(** X9. Which accepted texts give a database identifier: when
    [PyObjectId.validate] accepts a text, the identifier it returns has 12
    bytes exactly when the text is 24 hexadecimal digits; otherwise, the
    text having white space in it, the identifier is shorter. *)
Theorem twelve_bytes_iff_hex24 s st o st' :
  PyObjectId.validate (VStr s) st = (Ok (VObjectId o), st') ->
  (length (binary o) <= 12)%nat
  /\ (length (binary o) = 12%nat <-> is_hex24 (VStr s) = true).
Proof.
  intros Hv. destruct (validate_str_inv s st o st' Hv) as [Hlen Hb].
  destruct (fromhex_bound (String.length s) s (binary o) (le_n _) Hb) as [Hle Heq].
  split; [lia|]. split.
  - intros H12. cbn [is_hex24]. rewrite Hlen. cbn. apply Heq. lia.
  - intros Hs. cbn [is_hex24] in Hs. apply andb_prop in Hs as [_ Hhex].
    destruct (fromhex_hexdigits 12 s Hlen Hhex) as (b & Hb' & Hl). congruence.
Qed.

(** ** The module body *)

Section ModuleFacts.
Import main.

(** X11. The server is started by the module only when it is run as the
    program: after a run from the empty globals, [uvicorn.run] has been
    called, on "main:app", exactly when the body reached its end and
    [__name__] is "__main__"; importing the module under another name, or a
    run that raises, starts nothing. *)
Theorem server_starts_only_as_main src cars_router __name__ :
  match exec (module src cars_router __name__) empty_globals with
  | (None, g) =>
      serving g = if String.eqb __name__ "__main__" then Some "main:app" else None
  | (Some _, g) => serving g = None
  end.
Proof.
  destruct (config src "DB_URL") as [e|url] eqn:Eu.
  - unfold module, head_of_module. cbn [List.app exec].
    unfold assign_DB_URL at 1. rewrite Eu. reflexivity.
  - destruct (config src "DB_NAME") as [e|dbname] eqn:En.
    + unfold module, head_of_module. cbn [List.app exec].
      unfold assign_DB_URL at 1. rewrite Eu.
      unfold assign_DB_NAME at 1. rewrite En. reflexivity.
    + unfold module. rewrite (exec_configured _ _ _ _ _ Eu En).
      cbn. unfold run_if_main.
      destruct (String.eqb __name__ "__main__"); reflexivity.
Qed.

End ModuleFacts.

(** ** The further properties at concrete inputs *)





Lemma update_carries_what_was_supplied_witness :
  exists m st',
    __init__ CarUpdate (<["price" := VNone]> ∅) st0 = (Ok m, st')
    /\ exists o x,
         __dict__ m = [("id", VObjectId o); ("price", x)]
         /\ dict_ false true m
            = (if has_key (<["price" := VNone]> ∅) "_id" then [("id", VObjectId o)] else [])
              ++ (if has_key (<["price" := VNone]> ∅) "price" then [("price", x)] else [])
         /\ dict_ true true m
            = (if has_key (<["price" := VNone]> ∅) "_id" then [("_id", VObjectId o)] else [])
              ++ (if has_key (<["price" := VNone]> ∅) "price" then [("price", x)] else [])
         /\ ((<["price" := VNone]> ∅ : gmap string pyval) !! "price" = Some VNone -> x = VNone).
Proof.
  destruct (__init__ CarUpdate (<["price" := VNone]> ∅) st0) as [[m|r] st'] eqn:E.
  - exists m, st'. split; [reflexivity|].
    exact (update_carries_what_was_supplied _ st0 m st' E).
  - exfalso. vm_compute in E. discriminate.
Defined.


Lemma successive_instances_have_distinct_ids_witness :
  exists m1 m2 st2,
    __init__ CarDB fiat st0 = (Ok m1, mkState 0 0 1)
    /\ __init__ CarUpdate ∅ (mkState 5 0 1) = (Ok m2, st2)
    /\ getattr m1 "id" <> getattr m2 "id".
Proof.
  destruct (__init__ CarDB fiat st0) as [[m1|r1] st1] eqn:E1;
    [|exfalso; vm_compute in E1; discriminate].
  assert (Hst : st1 = mkState 0 0 1) by (vm_compute in E1; congruence).
  subst st1.
  destruct (__init__ CarUpdate ∅ (mkState 5 0 1)) as [[m2|r2] st2] eqn:E2;
    [|exfalso; vm_compute in E2; discriminate].
  exists m1, m2, st2. split; [reflexivity|]. split; [reflexivity|].
  apply (successive_instances_have_distinct_ids CarDB CarUpdate fiat ∅ st0 5
           m1 (mkState 0 0 1) m2 st2).
  - cbn; auto.
  - cbn; auto.
  - reflexivity.
  - reflexivity.
  - reflexivity.
  - exact E1.
  - exact E2.
Defined.

Lemma twelve_bytes_iff_hex24_witness :
  PyObjectId.validate (VStr "0123456789abcdef012345  ") st0
  = (Ok (VObjectId (mkObjectId [x01; x23; x45; x67; x89; xab; xcd; xef;
                                x01; x23; x45])), st0)
  /\ (length [x01; x23; x45; x67; x89; xab; xcd; xef; x01; x23; x45] <= 12)%nat
  /\ (length [x01; x23; x45; x67; x89; xab; xcd; xef; x01; x23; x45] = 12%nat
      <-> is_hex24 (VStr "0123456789abcdef012345  ") = true).
Proof.
  assert (E : PyObjectId.validate (VStr "0123456789abcdef012345  ") st0
              = (Ok (VObjectId (mkObjectId [x01; x23; x45; x67; x89; xab; xcd; xef;
                                            x01; x23; x45])), st0)) by reflexivity.
  split; [exact E|].
  exact (twelve_bytes_iff_hex24 _ st0 _ st0 E).
Defined.
